(** * Partitioned CIFAR datasets: the loader and the LDA partition generator

    A shallow embedding of
    [src/py/flwr_experimental/baseline/pytorch/cifar/dataloader.py]:
    the class [CIFAR_PartitionedDataset] with its two subclasses, and the
    script run under [if __name__ == "__main__"].

    Python objects are attribute dictionaries ([gmap string value]), raised
    exceptions are the [Raise] branch of [result], and every call that leaves
    the process (file system, dataset download, partitioner) is recorded in a
    chronological log of [event]s. *)

From Stdlib Require Import ZArith List Ascii String Lia.
From Stdlib Require Import DecimalString DecimalNat DecimalPos DecimalZ.
From stdpp Require Import base gmap strings list.

Open Scope Z_scope.

(** ** Paths *)

(** A [pathlib.Path] is kept as the expression that built it: the
    constructor applied to a string, followed by [/] joins.  What the
    operating system makes of it is left to the file system ([filesystem]
    below is any function of the path), and how pathlib prints it is left to
    pathlib. *)
Inductive Path : Type :=
| PathOf (s : string)
| PathDiv (p : Path) (name : string).

#[global] Instance Path_eq_dec : EqDecision Path.
Proof. solve_decision. Defined.

(** ** Python exceptions and results *)

(** The text of a [RuntimeError]: plain text, or the one message this file
    formats, [f"Partition file {path} not found."], kept as the path it
    names. *)
Inductive message : Type :=
| Text (s : string)
| PartitionNotFound (p : Path).

(** [LibraryError] is an exception raised inside [torch.load], the tuple
    unpacking or [from_numpy] (lines 89-91), by class name and text; the other
    constructors are the exceptions of the interpreter and of this file's own
    [raise] statements. *)
Inductive exn : Type :=
| TypeError (msg : string)
| ValueError (msg : string)
| RuntimeError (msg : message)
| FileNotFoundError (msg : string)
| IndexError
| AttributeError (attr : string)
| LibraryError (class_name text : string).

Inductive result (A : Type) : Type :=
| Ok (a : A)
| Raise (e : exn).

Arguments Ok {A} a.
Arguments Raise {A} e.

Definition rbind {A B : Type} (r : result A) (k : A -> result B) : result B :=
  match r with
  | Ok a => k a
  | Raise e => Raise e
  end.

Declare Scope py_scope.
Delimit Scope py_scope with py.
Notation "x <- r ; k" := (rbind r (fun x => k))
  (at level 100, r at next level, right associativity) : py_scope.

(** ** Strings and paths *)

(** [f"{n}"] for an [int]. *)
Definition str_int (n : Z) : string := NilZero.string_of_int (Z.to_int n).

(** [f"{idx:03}"] for the non-negative counter of [enumerate]: the decimal
    digits, filled with zeros on the left up to width 3. *)
Definition zfill (width : nat) (s : string) : string :=
  fold_right String.append s (replicate (width - String.length s)%nat "0"%string).

Definition format_03 (idx : nat) : string :=
  zfill 3 (NilZero.string_of_uint (Nat.to_uint idx)).

Infix "//" := PathDiv (at level 40, left associativity) : py_scope.

Definition DATA_ROOT : string := "~/.flower/data/cifar".

(** ** The collaborators the file imports

    [torchvision.datasets], [flwr.dataset.utils.common] and
    [flwr_experimental.baseline.pytorch.utils] are not part of the file; they
    are taken as an interface.  The partitioner draws from numpy's random
    generator, whose state [rng] is threaded through its calls. *)

Inductive provider : Type := CIFAR10 | CIFAR100.

Class Externals : Type := {
  feature : Type;
  dataset : Type;
  ndarray : Type;
  float : Type;
  rng : Type;
  np_empty : nat -> ndarray;
  format_2f : float -> string;
  torchvision_dataset : provider -> string -> bool -> bool -> dataset;
  convert_pytorch_dataset_to_xy : dataset -> list feature * list Z;
  create_lda_partitions :
    rng -> list feature * list Z -> ndarray -> Z -> float ->
    list (list feature * list Z) * ndarray * rng
}.

Section Model.
Context `{E : Externals}.

(** [XY] and [XYList] of [flwr.dataset.utils.common]. *)
Definition XY : Type := list feature * list Z.
Definition XYList : Type := list XY.

(** ** Values, objects and the file system *)

Inductive value : Type :=
| VNone
| VInt (n : Z)
| VPath (p : Path)
| VCallable (f : feature -> feature)
| VTensorX (X : list feature)
| VTensorY (Y : list Z)
| VImage (x : feature)
| VLabel (y : Z).

(** The instance dictionary of [self]. *)
Definition object : Type := gmap string value.

(** [self.name]: the classes of this file define no class attribute besides
    their methods, so a name missing from the instance dictionary raises. *)
Definition getattr (self : object) (name : string) : result value :=
  match self !! name with
  | Some v => Ok v
  | None => Raise (AttributeError name)
  end.

Definition setattr (self : object) (name : string) (v : value) : object :=
  <[name := v]> self.

(** The index of a subscript is converted to a signed 64-bit integer. *)
Definition fits_int64 (idx : Z) : bool :=
  (- 2 ^ 63 <=? idx) && (idx <? 2 ^ 63).

Definition index_overflow : exn :=
  RuntimeError (Text "Overflow when unpacking long").

(** [t[idx]] on the first dimension of a tensor: a negative index counts
    from the end; an index outside [-len <= idx < len] raises [IndexError]
    when it fits 64 bits and [RuntimeError] when its conversion overflows.
    A tensor has fewer than 2^63 elements, so an index that addresses one
    always converts; the range test is written first, which gives the same
    result on every tensor and spares the lists a bound on their length. *)
Definition tensor_index {A : Type} (t : list A) (idx : Z) : result A :=
  let n := Z.of_nat (length t) in
  let i := if idx <? 0 then idx + n else idx in
  if (0 <=? i) && (i <? n) then
    match nth_error t (Z.to_nat i) with
    | Some a => Ok a
    | None => Raise IndexError
    end
  else if fits_int64 idx then Raise IndexError
  else Raise index_overflow.

Definition subscript (v : value) (idx : Z) : result value :=
  match v with
  | VTensorX X => (x <- tensor_index X idx; Ok (VImage x))%py
  | VTensorY Y => (y <- tensor_index Y idx; Ok (VLabel y))%py
  | _ => Raise (TypeError "object is not subscriptable")
  end.

Definition py_len (v : value) : result Z :=
  match v with
  | VTensorX X => Ok (Z.of_nat (length X))
  | VTensorY Y => Ok (Z.of_nat (length Y))
  | _ => Raise (TypeError "object has no len()")
  end.

(** Truth value tested by [if v:].  A tensor holding other than one value
    has no truth value; an image tensor holds many. *)
Definition truthy (v : value) : result bool :=
  match v with
  | VNone => Ok false
  | VInt n => Ok (negb (n =? 0))
  | VLabel y | VTensorY [y] => Ok (negb (y =? 0))
  | VPath _ | VCallable _ => Ok true
  | VTensorX _ | VTensorY _ | VImage _ =>
      Raise (RuntimeError (Text "Boolean value of Tensor is ambiguous"))
  end.

Definition call (f : value) (x : value) : result value :=
  match f, x with
  | VCallable g, VImage a => Ok (VImage (g a))
  | _, _ => Raise (TypeError "object is not callable")
  end.

(** What is found at a path that exists: a partition file, holding the
    pair of arrays [(X, Y)] that [save] wrote, or anything else (a directory,
    a file [torch.load] cannot read, content that is not a pair of arrays),
    with the class and text of the exception lines 89-91 raise on it. *)
Inductive entry : Type :=
| PartitionFile (xy : XY)
| Unreadable (class_name text : string).

(** A path that does not exist has no entry. *)
Definition filesystem : Type := Path -> option entry.

(** ** Calls that leave the process *)

Inductive event : Type :=
| EExists (p : Path)
| ELoad (p : Path)
| EFetch (cls : provider) (root : string) (train download : bool)
| EMkdir (p : Path) (parents exist_ok : bool)
| EPartition (np_dataset : XY) (dirichlet_dist : ndarray)
             (num_partitions : Z) (concentration : float)
| ESave (part : XY) (p : Path).

(** A computation: the events it caused, in order, and how it ended. *)
Definition IO (A : Type) : Type := list event * result A.

Definition ret {A : Type} (a : A) : IO A := ([], Ok a).
Definition raise {A : Type} (e : exn) : IO A := ([], Raise e).
Definition emit (e : event) : IO unit := ([e], Ok tt).

Definition bind {A B : Type} (m : IO A) (k : A -> IO B) : IO B :=
  match m with
  | (l, Ok a) => let '(l', r) := k a in (l ++ l', r)
  | (l, Raise e) => (l, Raise e)
  end.

Notation "x <~ m ; k" := (bind m (fun x => k))
  (at level 100, m at next level, right associativity) : py_scope.
Notation "m ;; k" := (bind m (fun _ => k))
  (at level 100, right associativity) : py_scope.

Definition trace {A : Type} (m : IO A) : list event := fst m.
Definition outcome {A : Type} (m : IO A) : result A := snd m.

(** [p.exists()], and [X, Y = load(p)] followed by the two [from_numpy]
    conversions, which fail together when the entry is not a partition
    file. *)
Definition path_exists (fs : filesystem) (p : Path) : IO bool :=
  (emit (EExists p) ;; ret (bool_decide (is_Some (fs p))))%py.

Definition load (fs : filesystem) (p : Path) : IO XY :=
  (emit (ELoad p) ;;
   match fs p with
   | Some (PartitionFile xy) => ret xy
   | Some (Unreadable class_name text) => raise (LibraryError class_name text)
   | None => raise (FileNotFoundError "No such file or directory")
   end)%py.

(** [from_numpy] changes the representation only. *)
Definition from_numpy {A : Type} (a : list A) : list A := a.

Definition lift {A : Type} (r : result A) : IO A := ([], r).

(** ** class CIFAR_PartitionedDataset *)

(** The keyword arguments of a call; [None] is a keyword left out. *)
Record kwargs : Type := {
  kw_num_classes : option Z;
  kw_root_dir : option string;
  kw_partition_id : option Z;
  kw_transform : option value
}.

Definition num_classes_message : string :=
  "Number of classes can only be either 
                10 or 100 for CIFAR10 and CIFAR100 datasets respectively.".

Definition partition_file_name (num_classes partition_id : Z) : string :=
  "cifar" +:+ str_int num_classes +:+ "_" +:+ str_int partition_id +:+ ".pt".

(** The body of [__init__], once its parameters are bound.  [transform] is
    bound and never stored. *)
Definition CIFAR_PartitionedDataset_body (fs : filesystem)
    (num_classes : Z) (root_dir : string) (partition_id : Z)
    (transform : value) : IO object :=
  if negb ((num_classes =? 10) || (num_classes =? 100)) then
    raise (ValueError num_classes_message)
  else
    (let self := setattr ∅ "root_dir" (VPath (PathOf root_dir)) in
     let self := setattr self "partition_id" (VInt partition_id) in
     root <~ lift (getattr self "root_dir");
     pid <~ lift (getattr self "partition_id");
     match root, pid with
     | VPath r, VInt i =>
         let self :=
           setattr self "partition_path"
                   (VPath (r // partition_file_name num_classes i)) in
         pp <~ lift (getattr self "partition_path");
         match pp with
         | VPath partition_path =>
             found <~ path_exists fs partition_path;
             if negb found then
               raise (RuntimeError (PartitionNotFound partition_path))
             else
               xy <~ load fs partition_path;
               let self := setattr self "X" (VTensorX (fst xy)) in
               let self := setattr self "Y" (VTensorY (snd xy)) in
               vx <~ lift (getattr self "X");
               match vx with
               | VTensorX X =>
                   let self := setattr self "X" (VTensorX (from_numpy X)) in
                   vy <~ lift (getattr self "Y");
                   match vy with
                   | VTensorY Y =>
                       ret (setattr self "Y" (VTensorY (from_numpy Y)))
                   | _ => raise (TypeError "expected np.ndarray")
                   end
               | _ => raise (TypeError "expected np.ndarray")
               end
         | _ => raise (TypeError "expected a path")
         end
     | _, _ => raise (TypeError "unsupported operand type(s) for /")
     end)%py.

(** Calling the class with keyword arguments [kw]: [num_classes] and
    [root_dir] have defaults, [partition_id] and [transform] are keyword-only
    without one, and a call that leaves one of them out fails while
    binding. *)
Definition CIFAR_PartitionedDataset_init (fs : filesystem) (kw : kwargs)
    : IO object :=
  match kw_partition_id kw, kw_transform kw with
  | Some partition_id, Some transform =>
      CIFAR_PartitionedDataset_body fs
        (default 10 (kw_num_classes kw))
        (default DATA_ROOT (kw_root_dir kw))
        partition_id transform
  | Some _, None =>
      raise (TypeError
        "__init__() missing 1 required keyword-only argument: 'transform'")
  | None, Some _ =>
      raise (TypeError
        "__init__() missing 1 required keyword-only argument: 'partition_id'")
  | None, None =>
      raise (TypeError
        "__init__() missing 2 required keyword-only arguments: 'partition_id' and 'transform'")
  end.

Definition CIFAR_PartitionedDataset_len (self : object) : result Z :=
  (vx <- getattr self "X"; py_len vx)%py.

Definition CIFAR_PartitionedDataset_getitem (self : object) (idx : Z)
    : result (value * value) :=
  (vx <- getattr self "X";
   x <- subscript vx idx;
   vy <- getattr self "Y";
   y <- subscript vy idx;
   t <- getattr self "transform";
   b <- truthy t;
   x' <- (if b : bool then (f <- getattr self "trasform"; call f x) else Ok x);
   Ok (x', y))%py.

(** ** The two subclasses *)

Record sub_kwargs : Type := {
  skw_root_dir : option string;
  skw_partition_id : option Z
}.

Definition CIFAR10PartitionedDataset_init (fs : filesystem)
    (kw : sub_kwargs) : IO object :=
  match skw_partition_id kw with
  | Some partition_id =>
      let root_dir := default DATA_ROOT (skw_root_dir kw) in
      CIFAR_PartitionedDataset_init fs
        {| kw_num_classes := Some 10;
           kw_root_dir := Some root_dir;
           kw_partition_id := Some partition_id;
           kw_transform := None |}
  | None =>
      raise (TypeError
        "__init__() missing 1 required keyword-only argument: 'partition_id'")
  end.

Definition CIFAR100PartitionedDataset_init (fs : filesystem)
    (kw : sub_kwargs) : IO object :=
  match skw_partition_id kw with
  | Some partition_id =>
      let root_dir := default DATA_ROOT (skw_root_dir kw) in
      CIFAR_PartitionedDataset_init fs
        {| kw_num_classes := Some 100;
           kw_root_dir := Some root_dir;
           kw_partition_id := Some partition_id;
           kw_transform := None |}
  | None =>
      raise (TypeError
        "__init__() missing 1 required keyword-only argument: 'partition_id'")
  end.


(** ** The script: generating the LDA partitions *)

(** What [parser.parse_args()] returns. *)
Record Namespace : Type := {
  num_classes : Z;
  num_partitions : Z;
  alpha : float;
  save_root : string
}.

(** [CIFAR10(root=..., train=..., download=...)] and its sibling. *)
Definition fetch (cls : provider) (root : string) (train download : bool)
    : IO dataset :=
  (emit (EFetch cls root train download) ;;
   ret (torchvision_dataset cls root train download))%py.

Definition mkdir (p : Path) (parents exist_ok : bool) : IO unit :=
  emit (EMkdir p parents exist_ok).

Definition save (part : XY) (p : Path) : IO unit :=
  emit (ESave part p).

(** [f"{DATA_ROOT}-{args.num_classes}"] *)
Definition download_root (args : Namespace) : string :=
  DATA_ROOT +:+ "-" +:+ str_int (num_classes args).

(** [for idx, part in enumerate(partitions): save(...)], from counter [idx]. *)
Fixpoint save_partitions (save_dir : Path) (idx : nat) (partitions : XYList)
    : IO unit :=
  match partitions with
  | [] => ret tt
  | part :: rest =>
      (save part (save_dir // (format_03 idx +:+ ".pt")) ;;
       save_partitions save_dir (S idx) rest)%py
  end.

(** One turn of the outer loop; [dist] (with the generator state) is the
    variable the loop carries from one turn to the next. *)
Definition split_body (args : Namespace) (root : Path)
    (carried : ndarray * rng) (item : dataset * string)
    : IO (ndarray * rng) :=
  let '(dist, g) := carried in
  let '(ds, data_str) := item in
  let save_dir := (root // data_str)%py in
  (mkdir save_dir true true ;;
   let np_dataset := convert_pytorch_dataset_to_xy ds in
   emit (EPartition np_dataset dist (num_partitions args) (alpha args)) ;;
   let '(partitions, dist', g') :=
     create_lda_partitions g np_dataset dist (num_partitions args) (alpha args) in
   save_partitions save_dir 0 partitions ;;
   ret (dist', g'))%py.

Fixpoint for_each {A S : Type} (body : S -> A -> IO S) (s : S) (items : list A)
    : IO S :=
  match items with
  | [] => ret s
  | a :: rest => (s' <~ body s a; for_each body s' rest)%py
  end.

(** The script after [parse_args].  [basic_transform] is built from
    constants and used nowhere, so it leaves no trace here. *)
Definition main (args : Namespace) (g : rng) : IO unit :=
  let root :=
    (PathOf (save_root args) // "partitions" // "lda" // format_2f (alpha args))%py in
  (train_dataset <~ fetch CIFAR10 (download_root args) true true;
   test_dataset <~ fetch CIFAR10 (download_root args) true true;
   let dist := np_empty 0 in
   for_each (split_body args root) (dist, g)
            [(train_dataset, "train"%string); (test_dataset, "test"%string)] ;;
   ret tt)%py.

(** ** Reading a log *)

Definition fetches (l : list event) : list (provider * string * bool * bool) :=
  omap (fun e => match e with
                 | EFetch cls root train download =>
                     Some (cls, root, train, download)
                 | _ => None
                 end) l.

Definition partition_calls (l : list event) : list (XY * ndarray * Z * float) :=
  omap (fun e => match e with
                 | EPartition d dist n a => Some (d, dist, n, a)
                 | _ => None
                 end) l.

Definition is_disk_write (e : event) : bool :=
  match e with
  | EMkdir _ _ _ | ESave _ _ => true
  | _ => false
  end.

Definition disk_writes (l : list event) : list event :=
  List.filter is_disk_write l.

Definition file_accesses (l : list event) : list Path :=
  omap (fun e => match e with
                 | EExists p | ELoad p => Some p
                 | _ => None
                 end) l.

Definition saved_paths (l : list event) : list Path :=
  omap (fun e => match e with
                 | ESave _ p => Some p
                 | _ => None
                 end) l.

Definition made_dirs (l : list event) : list Path :=
  omap (fun e => match e with
                 | EMkdir p _ _ => Some p
                 | _ => None
                 end) l.

End Model.

(** ** A small instance of the collaborators, to run the model on

    Images are numbers, a dataset is a list of (image, label) pairs, the
    concentration is counted in hundredths, and the partitioner deals the
    elements out in turn. *)

Definition deal {A : Type} (n : nat) (l : list A) : list (list A) :=
  map (fun k => omap (fun '(i, a) => if (i mod n =? k)%nat then Some a else None)
                     (imap pair l))
      (seq 0 n).

Definition toy_format_2f (hundredths : nat) : string :=
  NilZero.string_of_uint (Nat.to_uint (hundredths / 100)) +:+ "." +:+
  zfill 2 (NilZero.string_of_uint (Nat.to_uint (hundredths mod 100))).

Definition toy_dataset (cls : provider) (train : bool) : list (Z * Z) :=
  match cls, train with
  | CIFAR10, true => [(11, 0); (12, 1); (13, 2); (14, 0); (15, 1)]
  | CIFAR10, false => [(21, 2); (22, 0)]
  | CIFAR100, true => [(31, 57); (32, 99); (33, 4)]
  | CIFAR100, false => [(41, 63)]
  end.

Definition toy : Externals := {|
  feature := Z;
  dataset := list (Z * Z);
  ndarray := list Z;
  float := nat;
  rng := nat;
  np_empty := fun n => replicate n 0;
  format_2f := toy_format_2f;
  torchvision_dataset := fun cls _ train _ => toy_dataset cls train;
  convert_pytorch_dataset_to_xy := fun d => (map fst d, map snd d);
  create_lda_partitions := fun g xy dist n _ =>
    (zip (deal (Z.to_nat n) (fst xy)) (deal (Z.to_nat n) (snd xy)),
     match dist with [] => [Z.of_nat g; 7] | _ => dist end,
     S g)
|}.

(** A directory holding one partition file, [cifar10_0.pt], of three
    items, and a subdirectory that happens to be called [cifar100_1.pt]. *)
Definition toy_fs : @filesystem toy :=
  fun p =>
    if decide (p = (PathOf "data" // "cifar10_0.pt")%py)
    then Some (@PartitionFile toy ([5; 6; 7], [0; 1; 0]))
    else if decide (p = (PathOf "data" // "cifar100_1.pt")%py)
    then Some (@Unreadable toy "IsADirectoryError" "Is a directory")
    else None.

Definition toy_view : @object toy :=
  <["Y" := @VTensorY toy [0; 1; 0]]>
    (<["X" := @VTensorX toy [5; 6; 7]]>
      (<["partition_path" := @VPath toy (PathOf "data" // "cifar10_0.pt")%py]>
        (<["partition_id" := @VInt toy 0]>
          (<["root_dir" := @VPath toy (PathOf "data")]> ∅)))).

Definition toy_kwargs (n : Z) : @kwargs toy :=
  {| kw_num_classes := Some n;
     kw_root_dir := Some "data"%string;
     kw_partition_id := Some 0;
     kw_transform := Some (@VNone toy) |}.

Definition toy_args : @Namespace toy :=
  @Build_Namespace toy 100 2 10%nat "out".



(** Another command line: ten classes, four partitions, same alpha and
    save_root. *)
Definition toy_args' : @Namespace toy :=
  @Build_Namespace toy 10 4 10%nat "out".


(** * Properties *)

Section Properties.
Context `{E : Externals}.

(** ** Indexing a tensor *)






(** ** What a successful construction leaves behind *)

Ltac attr_lookup :=
  repeat first [ rewrite lookup_insert_eq
               | rewrite lookup_insert_ne by (intros ?; discriminate)
               | rewrite lookup_empty ].

Lemma body_valid_classes (fs : filesystem) (nc : Z) (root : string) (pid : Z)
    (tr : value) :
  nc = 10 \/ nc = 100 ->
  let p := (PathOf root // partition_file_name nc pid)%py in
  CIFAR_PartitionedDataset_body fs nc root pid tr =
  match fs p with
  | None => ([EExists p], Raise (RuntimeError (PartitionNotFound p)))
  | Some (Unreadable class_name text) =>
      ([EExists p; ELoad p], Raise (LibraryError class_name text))
  | Some (PartitionFile (X, Y)) =>
      ([EExists p; ELoad p],
       Ok (<["Y" := VTensorY Y]>
            (<["X" := VTensorX X]>
              (<["partition_path" := VPath p]>
                (<["partition_id" := VInt pid]>
                  (<["root_dir" := VPath (PathOf root)]> ∅))))))
  end.
Proof.
  intros Hnc p. unfold CIFAR_PartitionedDataset_body.
  replace (negb ((nc =? 10) || (nc =? 100))) with false
    by (destruct Hnc; subst nc; reflexivity).
  unfold getattr, setattr, lift, path_exists, load, from_numpy, object.
  attr_lookup. cbn. attr_lookup. cbn. fold p.
  destruct (fs p) as [[[X Y]|c t]|] eqn:Hfs.
  - rewrite bool_decide_eq_true_2 by eauto. cbn.
    attr_lookup. cbn. attr_lookup. cbn.
    reflexivity.
  - rewrite bool_decide_eq_true_2 by eauto. reflexivity.
  - rewrite bool_decide_eq_false_2 by (intros [? ?]; congruence). reflexivity.
Qed.

Lemma valid_num_classes (nc : Z) :
  negb ((nc =? 10) || (nc =? 100)) = false <-> nc = 10 \/ nc = 100.
Proof.
  rewrite negb_false_iff, orb_true_iff, !Z.eqb_eq. reflexivity.
Qed.

Lemma body_invalid_classes (fs : filesystem) (nc : Z) (root : string)
    (pid : Z) (tr : value) :
  nc <> 10 -> nc <> 100 ->
  CIFAR_PartitionedDataset_body fs nc root pid tr =
  ([], Raise (ValueError num_classes_message)).
Proof.
  intros H10 H100. unfold CIFAR_PartitionedDataset_body.
  destruct (negb ((nc =? 10) || (nc =? 100))) eqn:Hc; [reflexivity|].
  apply valid_num_classes in Hc. tauto.
Qed.



(** ** The dataset view *)



(** C3: a call that supplies partition_id and transform and a num_classes
    other than 10 and 100 raises ValueError (the ConfigurationError of the
    design), and the file system has not been touched. *)
Theorem invalid_num_classes_raises (fs : filesystem) (kw : kwargs)
    (nc pid : Z) (tr : value) :
  kw_num_classes kw = Some nc ->
  kw_partition_id kw = Some pid ->
  kw_transform kw = Some tr ->
  nc <> 10 -> nc <> 100 ->
  outcome (CIFAR_PartitionedDataset_init fs kw) =
    Raise (ValueError num_classes_message) /\
  trace (CIFAR_PartitionedDataset_init fs kw) = [].
Proof.
  intros Hnc Hpid Htr H10 H100. unfold CIFAR_PartitionedDataset_init.
  rewrite Hnc, Hpid, Htr. cbn [default].
  rewrite (body_invalid_classes fs nc _ pid tr H10 H100). split; reflexivity.
Qed.

(** C4: for num_classes 10 or 100 the constructor looks for the partition
    file at root_dir / "cifar{num_classes}_{partition_id}.pt" and nowhere
    else, keeps that path in partition_path, and raises the RuntimeError of
    line 87 for that path (the NotFoundError of the design) if and only if
    nothing exists there.  When something exists there, the outcome is the
    object, or the exception the libraries raise on lines 89-91. *)
Theorem partition_path_and_not_found (fs : filesystem) (nc : Z)
    (root_dir : string) (partition_id : Z) (transform : value) :
  nc = 10 \/ nc = 100 ->
  let p := (PathOf root_dir //
            ("cifar" +:+ str_int nc +:+ "_" +:+ str_int partition_id +:+ ".pt"))%py in
  let r := CIFAR_PartitionedDataset_init fs
             {| kw_num_classes := Some nc; kw_root_dir := Some root_dir;
                kw_partition_id := Some partition_id;
                kw_transform := Some transform |} in
  Forall (fun q => q = p) (file_accesses (trace r)) /\
  (forall self, outcome r = Ok self ->
                getattr self "partition_path" = Ok (VPath p)) /\
  (outcome r = Raise (RuntimeError (PartitionNotFound p)) <-> fs p = None) /\
  (forall xy, fs p = Some (PartitionFile xy) -> exists self, outcome r = Ok self) /\
  (forall class_name text,
     fs p = Some (Unreadable class_name text) ->
     outcome r = Raise (LibraryError class_name text)).
Proof.
  intros Hnc p r.
  change r with (CIFAR_PartitionedDataset_body fs nc root_dir partition_id transform).
  clear r. rewrite (body_valid_classes fs nc root_dir partition_id transform Hnc).
  cbv zeta. change (PathOf root_dir // partition_file_name nc partition_id)%py with p.
  destruct (fs p) as [[[X Y]|c t]|] eqn:Hfs; cbn.
  - split; [repeat constructor|]. split; [intros self [= <-]; reflexivity|].
    split; [split; discriminate|]. split; [eauto | discriminate].
  - split; [repeat constructor|]. split; [discriminate|].
    split; [split; discriminate|]. split; [discriminate|].
    intros c' t' [= <- <-]. reflexivity.
  - split; [repeat constructor|]. split; [discriminate|].
    split; [split; reflexivity|]. split; discriminate.
Qed.

(** C6: neither specialization can be instantiated: the call to the base
    constructor leaves out the keyword-only transform, which has no default,
    so binding raises TypeError before the constructor body runs. *)
Theorem specializations_raise_TypeError (fs : filesystem)
    (root_dir : option string) (partition_id : Z) :
  let kw := {| skw_root_dir := root_dir; skw_partition_id := Some partition_id |} in
  let missing :=
    TypeError "__init__() missing 1 required keyword-only argument: 'transform'" in
  outcome (CIFAR10PartitionedDataset_init fs kw) = Raise missing /\
  trace (CIFAR10PartitionedDataset_init fs kw) = [] /\
  outcome (CIFAR100PartitionedDataset_init fs kw) = Raise missing /\
  trace (CIFAR100PartitionedDataset_init fs kw) = [].
Proof.
  repeat split.
Qed.

(** ** The generator *)

(** Below a thousand, [{idx:03}] is exactly three characters long. *)
Lemma format_03_three_digits (idx : nat) :
  (idx < 1000)%nat -> String.length (format_03 idx) = 3%nat.
Proof.
  intros H.
  assert (Hall : forallb (fun i => (String.length (format_03 i) =? 3)%nat)
                         (seq 0 1000) = true) by (vm_compute; reflexivity).
  rewrite forallb_forall in Hall.
  apply Nat.eqb_eq, Hall, in_seq. lia.
Qed.

Lemma zeros_length (k : nat) (s : string) :
  String.length (fold_right String.append s (replicate k "0"%string)) =
  (k + String.length s)%nat.
Proof.
  induction k as [|k IH]; [reflexivity|].
  cbn [replicate fold_right]. change ("0" +:+ ?x)%string with (String "0"%char x).
  cbn [String.length]. rewrite IH. reflexivity.
Qed.

Lemma zfill_length (width : nat) (s : string) :
  String.length (zfill width s) = Nat.max width (String.length s).
Proof. unfold zfill. rewrite zeros_length. lia. Qed.

Lemma zfill_value (width : nat) (s : string) (u : Decimal.uint) :
  NilEmpty.uint_of_string s = Some u ->
  exists u', NilEmpty.uint_of_string (zfill width s) = Some u' /\
             Nat.of_uint u' = Nat.of_uint u.
Proof.
  intros Hs. unfold zfill.
  induction (width - String.length s)%nat as [|k (u' & Hu' & Hv)].
  - exists u. split; [exact Hs | reflexivity].
  - exists (Decimal.D0 u'). cbn [replicate fold_right].
    change (("0" +:+ ?x)%string) with (String "0"%char x).
    cbn [NilEmpty.uint_of_string]. rewrite Hu'. split; [reflexivity|].
    unfold Nat.of_uint in *. cbn. exact Hv.
Qed.

Lemma decimal_value (d : Decimal.uint) :
  exists u, NilEmpty.uint_of_string (NilZero.string_of_uint d) = Some u /\
            Nat.of_uint u = Nat.of_uint d.
Proof.
  destruct d; try (eexists; split; [apply NilEmpty.usu | reflexivity]).
  exists (Decimal.D0 Decimal.Nil). split; reflexivity.
Qed.

Lemma format_03_value (idx : nat) :
  exists u, NilEmpty.uint_of_string (format_03 idx) = Some u /\
            Nat.of_uint u = idx.
Proof.
  destruct (decimal_value (Nat.to_uint idx)) as (u & Hu & Hv).
  destruct (zfill_value 3 _ u Hu) as (u' & Hu' & Hv').
  exists u'. split; [exact Hu'|].
  rewrite Hv', Hv. apply DecimalNat.Unsigned.of_to.
Qed.

Lemma format_03_min_width (idx : nat) :
  (3 <= String.length (format_03 idx))%nat.
Proof. unfold format_03. rewrite zfill_length. lia. Qed.

Lemma format_03_parse (idx : nat) :
  Nat.of_uint <$> NilZero.uint_of_string (format_03 idx) = Some idx.
Proof.
  destruct (format_03_value idx) as (u & Hu & Hv).
  pose proof (format_03_min_width idx) as Hlen.
  unfold NilZero.uint_of_string.
  destruct (format_03 idx) as [|c rest]; [cbn in Hlen; lia|].
  rewrite Hu. cbn. rewrite Hv. reflexivity.
Qed.

Lemma save_partitions_trace (save_dir : Path) (partitions : XYList) (k : nat) :
  save_partitions save_dir k partitions =
  (imap (fun idx part =>
           ESave part (save_dir // (format_03 (k + idx) +:+ ".pt"))%py)
        partitions,
   Ok tt).
Proof.
  revert k. induction partitions as [|part rest IH]; intros k.
  - reflexivity.
  - cbn [save_partitions]. unfold save, emit, bind. rewrite (IH (S k)).
    cbn [imap app]. rewrite Nat.add_0_r. do 2 f_equal.
    apply imap_ext. intros i x _. cbn. rewrite Nat.add_succ_r. reflexivity.
Qed.

(** The whole log of a run, in order. *)
Lemma main_run (args : Namespace) (g : rng) :
  let root :=
    (PathOf (save_root args) // "partitions" // "lda" // format_2f (alpha args))%py in
  let train_xy :=
    convert_pytorch_dataset_to_xy
      (torchvision_dataset CIFAR10 (download_root args) true true) in
  let test_xy :=
    convert_pytorch_dataset_to_xy
      (torchvision_dataset CIFAR10 (download_root args) true true) in
  let first :=
    create_lda_partitions g train_xy (np_empty 0)
                          (num_partitions args) (alpha args) in
  let second :=
    create_lda_partitions first.2 test_xy first.1.2
                          (num_partitions args) (alpha args) in
  let saved split shards :=
    imap (fun idx part =>
            ESave part (root // split // (format_03 idx +:+ ".pt"))%py) shards in
  main args g =
  ([EFetch CIFAR10 (download_root args) true true;
    EFetch CIFAR10 (download_root args) true true]
   ++ [EMkdir (root // "train")%py true true;
       EPartition train_xy (np_empty 0) (num_partitions args) (alpha args)]
   ++ saved "train"%string first.1.1
   ++ [EMkdir (root // "test")%py true true;
       EPartition test_xy first.1.2 (num_partitions args) (alpha args)]
   ++ saved "test"%string second.1.1,
   Ok tt).
Proof.
  intros root train_xy test_xy first second saved.
  subst second first saved test_xy train_xy.
  set (xy := convert_pytorch_dataset_to_xy _).
  unfold main, fetch, for_each, split_body, mkdir, emit, ret.
  fold root. cbn [bind app]. fold xy.
  destruct (create_lda_partitions g xy _ _ _) as [[parts1 dist1] g1].
  rewrite save_partitions_trace. cbn [bind app fst snd].
  destruct (create_lda_partitions g1 xy dist1 _ _) as [[parts2 dist2] g2].
  rewrite save_partitions_trace. cbn [bind app fst snd].
  rewrite !app_nil_r. reflexivity.
Qed.

Lemma fetches_app (l1 l2 : list event) :
  fetches (l1 ++ l2) = fetches l1 ++ fetches l2.
Proof. apply omap_app. Qed.

Lemma partition_calls_app (l1 l2 : list event) :
  partition_calls (l1 ++ l2) = partition_calls l1 ++ partition_calls l2.
Proof. apply omap_app. Qed.

Lemma disk_writes_app (l1 l2 : list event) :
  disk_writes (l1 ++ l2) = disk_writes l1 ++ disk_writes l2.
Proof. apply List.filter_app. Qed.

(** A run of [ESave] events holds nothing else. *)
Lemma saves_only (f : nat -> XY -> Path) (shards : XYList) :
  let l := imap (fun idx part => ESave part (f idx part)) shards in
  disk_writes l = l /\ fetches l = [] /\ partition_calls l = [].
Proof.
  cbv zeta. revert f.
  induction shards as [|part rest IH]; intros f; [by repeat split|].
  destruct (IH (fun idx => f (S idx))) as (IHw & IHf & IHp).
  repeat split.
  - unfold disk_writes in *. cbn. f_equal. exact IHw.
  - exact IHf.
  - exact IHp.
Qed.

Lemma saved_shards (save_dir : Path) (shards : XYList) :
  let l := imap (fun idx part =>
                   ESave part (save_dir // (format_03 idx +:+ ".pt"))%py) shards in
  disk_writes l = l /\ fetches l = [] /\ partition_calls l = [].
Proof.
  apply (saves_only (fun idx _ => (save_dir // (format_03 idx +:+ ".pt"))%py)).
Qed.

Lemma main_partition_calls (args : Namespace) (g : rng) :
  let xy :=
    convert_pytorch_dataset_to_xy
      (torchvision_dataset CIFAR10 (download_root args) true true) in
  let first :=
    create_lda_partitions g xy (np_empty 0)
                          (num_partitions args) (alpha args) in
  partition_calls (trace (main args g)) =
  [(xy, np_empty 0, num_partitions args, alpha args);
   (xy, first.1.2, num_partitions args, alpha args)].
Proof.
  intros xy first.
  rewrite (main_run args g). cbv zeta. unfold trace. cbn [fst].
  rewrite !partition_calls_app.
  rewrite !(proj2 (proj2 (saved_shards _ _))).
  reflexivity.
Qed.

Lemma main_fetches (args : Namespace) (g : rng) :
  fetches (trace (main args g)) =
  [(CIFAR10, download_root args, true, true);
   (CIFAR10, download_root args, true, true)].
Proof.
  rewrite (main_run args g). cbv zeta. unfold trace. cbn [fst].
  rewrite !fetches_app.
  rewrite !(proj1 (proj2 (saved_shards _ _))).
  reflexivity.
Qed.

(** C7: the writes of a run to disk are, for "train" and then for "test":
    the directory save_root/partitions/lda/{alpha:.2f}/{split} created with
    parents=True and exist_ok=True, followed by every shard the partitioner
    returned for that split, in order, the shard at position idx saved at
    {idx:03}.pt inside that directory.  The stem {idx:03} reads as the
    decimal number idx and is exactly three characters long below 1000: the
    position, padded with zeros to three digits. *)
Theorem shards_written (args : Namespace) (g : rng) :
  let root :=
    (PathOf (save_root args) // "partitions" // "lda" // format_2f (alpha args))%py in
  let train_xy :=
    convert_pytorch_dataset_to_xy
      (torchvision_dataset CIFAR10 (download_root args) true true) in
  let test_xy :=
    convert_pytorch_dataset_to_xy
      (torchvision_dataset CIFAR10 (download_root args) true true) in
  let first :=
    create_lda_partitions g train_xy (np_empty 0)
                          (num_partitions args) (alpha args) in
  let second :=
    create_lda_partitions first.2 test_xy first.1.2
                          (num_partitions args) (alpha args) in
  let written split shards :=
    EMkdir (root // split)%py true true ::
    imap (fun idx part =>
            ESave part (root // split // (format_03 idx +:+ ".pt"))%py) shards in
  disk_writes (trace (main args g)) =
    written "train"%string first.1.1 ++ written "test"%string second.1.1 /\
  (forall idx : nat,
     Nat.of_uint <$> NilZero.uint_of_string (format_03 idx) = Some idx /\
     ((idx < 1000)%nat -> String.length (format_03 idx) = 3%nat)).
Proof.
  intros root train_xy test_xy first second written. split.
  - rewrite (main_run args g). cbv zeta.
    unfold trace. cbn [fst]. rewrite !disk_writes_app.
    rewrite !(proj1 (saved_shards _ _)).
    reflexivity.
  - intros idx. split; [apply format_03_parse | apply format_03_three_digits].
Qed.

(** C8: the partitioner is called twice; the first call, for the train
    split, receives the empty array np.empty(0), and the second call, for the
    test split, receives the distribution array the first call returned. *)
Theorem distribution_threaded (args : Namespace) (g : rng) :
  let train_xy :=
    convert_pytorch_dataset_to_xy
      (torchvision_dataset CIFAR10 (download_root args) true true) in
  let test_xy :=
    convert_pytorch_dataset_to_xy
      (torchvision_dataset CIFAR10 (download_root args) true true) in
  let first :=
    create_lda_partitions g train_xy (np_empty 0)
                          (num_partitions args) (alpha args) in
  partition_calls (trace (main args g)) =
  [(train_xy, np_empty 0, num_partitions args, alpha args);
   (test_xy, first.1.2, num_partitions args, alpha args)].
Proof.
  intros train_xy test_xy first. apply main_partition_calls.
Qed.

(** C9: the dataset named train and the dataset named test both come from
    CIFAR10(root="{DATA_ROOT}-{num_classes}", train=True, download=True), so
    the two splits handed to the partitioner are the same data. *)
Theorem both_splits_from_train (args : Namespace) (g : rng) :
  let root := DATA_ROOT +:+ "-" +:+ str_int (num_classes args) in
  let ds := torchvision_dataset CIFAR10 root true true in
  fetches (trace (main args g)) =
    [(CIFAR10, root, true, true); (CIFAR10, root, true, true)] /\
  map (fun c => c.1.1.1) (partition_calls (trace (main args g))) =
    [convert_pytorch_dataset_to_xy ds; convert_pytorch_dataset_to_xy ds].
Proof.
  intros root ds. split.
  - apply main_fetches.
  - rewrite (main_partition_calls args g). reflexivity.
Qed.

(** C10: whatever --num_classes is, both downloads go through the CIFAR10
    class; num_classes only appears in the root directory
    "{DATA_ROOT}-{num_classes}".  With --num_classes 100 the run fetches
    CIFAR10 into "~/.flower/data/cifar-100". *)
Theorem provider_is_always_CIFAR10 (args : Namespace) (g : rng) :
  map (fun f => f.1.1.1) (fetches (trace (main args g))) = [CIFAR10; CIFAR10] /\
  map (fun f => f.1.1.2) (fetches (trace (main args g))) =
    [DATA_ROOT +:+ "-" +:+ str_int (num_classes args);
     DATA_ROOT +:+ "-" +:+ str_int (num_classes args)] /\
  (num_classes args = 100 ->
   fetches (trace (main args g)) =
     [(CIFAR10, "~/.flower/data/cifar-100"%string, true, true);
      (CIFAR10, "~/.flower/data/cifar-100"%string, true, true)]).
Proof.
  rewrite (main_fetches args g). repeat split.
  intros H. unfold download_root. rewrite H. reflexivity.
Qed.

End Properties.

(** * The model at work on a small instance *)





(** C5 where it fails: the directory holds cifar10_0.pt, and the base
    constructor called with num_classes = 10, that root_dir, partition_id = 0
    and a transform returns a view of length 3, while CIFAR10PartitionedDataset
    called with the same root_dir and partition_id raises TypeError. *)
Lemma specialization_fails_where_base_succeeds :
  outcome (@CIFAR_PartitionedDataset_init toy toy_fs
             {| kw_num_classes := Some 10; kw_root_dir := Some "data"%string;
                kw_partition_id := Some 0;
                kw_transform := Some (@VNone toy) |}) = Ok toy_view /\
  @CIFAR_PartitionedDataset_len toy toy_view = Ok 3 /\
  outcome (@CIFAR10PartitionedDataset_init toy toy_fs
             {| skw_root_dir := Some "data"%string;
                skw_partition_id := Some 0 |}) =
    Raise (TypeError
      "__init__() missing 1 required keyword-only argument: 'transform'").
Proof.
  repeat split.
Qed.

(** C3 at num_classes = 7. *)
Lemma invalid_num_classes_raises_witness :
  outcome (@CIFAR_PartitionedDataset_init toy toy_fs (toy_kwargs 7)) =
    Raise (ValueError num_classes_message) /\
  trace (@CIFAR_PartitionedDataset_init toy toy_fs (toy_kwargs 7)) = [].
Proof.
  apply (@invalid_num_classes_raises toy toy_fs (toy_kwargs 7) 7 0 (@VNone toy));
    try reflexivity; lia.
Defined.

(** C4 at num_classes = 100: partition 0 is not in the directory, and what
    is there under the name of partition 1 is a subdirectory. *)
Lemma partition_path_and_not_found_witness :
  (outcome (@CIFAR_PartitionedDataset_init toy toy_fs (toy_kwargs 100)) =
     Raise (RuntimeError
              (PartitionNotFound (PathOf "data" // "cifar100_0.pt")%py)) <->
   toy_fs (PathOf "data" // "cifar100_0.pt")%py = None) /\
  outcome (@CIFAR_PartitionedDataset_init toy toy_fs
             {| kw_num_classes := Some 100; kw_root_dir := Some "data"%string;
                kw_partition_id := Some 1;
                kw_transform := Some (@VNone toy) |}) =
    Raise (LibraryError "IsADirectoryError" "Is a directory").
Proof.
  split.
  - exact (proj1 (proj2 (proj2
      (@partition_path_and_not_found toy toy_fs 100 "data" 0 (@VNone toy)
         (or_intror eq_refl))))).
  - apply (proj2 (proj2 (proj2 (proj2
      (@partition_path_and_not_found toy toy_fs 100 "data" 1 (@VNone toy)
         (or_intror eq_refl)))))).
    reflexivity.
Defined.

(** C7 on a run with two partitions of the five-item dataset: the files
    are 000.pt and 001.pt in train and in test. *)
Lemma shards_written_witness :
  disk_writes (trace (@main toy toy_args 3%nat)) =
    [@EMkdir toy (PathOf "out" // "partitions" // "lda" // "0.10" // "train")%py
       true true;
     @ESave toy ([11; 13; 15], [0; 2; 1])
       (PathOf "out" // "partitions" // "lda" // "0.10" // "train" // "000.pt")%py;
     @ESave toy ([12; 14], [1; 0])
       (PathOf "out" // "partitions" // "lda" // "0.10" // "train" // "001.pt")%py;
     @EMkdir toy (PathOf "out" // "partitions" // "lda" // "0.10" // "test")%py
       true true;
     @ESave toy ([11; 13; 15], [0; 2; 1])
       (PathOf "out" // "partitions" // "lda" // "0.10" // "test" // "000.pt")%py;
     @ESave toy ([12; 14], [1; 0])
       (PathOf "out" // "partitions" // "lda" // "0.10" // "test" // "001.pt")%py] /\
  String.length (format_03 7) = 3%nat.
Proof.
  pose proof (@shards_written toy toy_args 3%nat) as [Hw Hn].
  split; [exact Hw | apply (Hn 7%nat); lia].
Defined.

(** C10 at --num_classes 100. *)
Lemma provider_is_always_CIFAR10_witness :
  fetches (trace (@main toy toy_args 3%nat)) =
    [(CIFAR10, "~/.flower/data/cifar-100"%string, true, true);
     (CIFAR10, "~/.flower/data/cifar-100"%string, true, true)].
Proof.
  apply (proj2 (proj2 (@provider_is_always_CIFAR10 toy toy_args 3%nat))).
  reflexivity.
Defined.

(** * Further properties of the dataset class *)

Section DatasetClass.
Context `{E : Externals}.

#[local] Set Warnings "-clear-no-such-hyp".

Lemma init_bound (fs : filesystem) (kw : kwargs) (pid : Z) (tr : value) :
  kw_partition_id kw = Some pid ->
  kw_transform kw = Some tr ->
  CIFAR_PartitionedDataset_init fs kw =
  CIFAR_PartitionedDataset_body fs (default 10 (kw_num_classes kw))
    (default DATA_ROOT (kw_root_dir kw)) pid tr.
Proof.
  intros Hp Ht. unfold CIFAR_PartitionedDataset_init. rewrite Hp, Ht.
  reflexivity.
Qed.

Lemma init_unbound (fs : filesystem) (kw : kwargs) :
  kw_partition_id kw = None \/ kw_transform kw = None ->
  exists msg, CIFAR_PartitionedDataset_init fs kw = ([], Raise (TypeError msg)).
Proof.
  unfold CIFAR_PartitionedDataset_init, raise.
  destruct (kw_partition_id kw), (kw_transform kw); intros [H|H];
    try discriminate; eauto.
Qed.

Lemma init_success_inv (fs : filesystem) (kw : kwargs) (self : object) :
  outcome (CIFAR_PartitionedDataset_init fs kw) = Ok self ->
  let nc := default 10 (kw_num_classes kw) in
  let root := default DATA_ROOT (kw_root_dir kw) in
  exists (pid : Z) (tr : value) (X : list feature) (Y : list Z),
    kw_partition_id kw = Some pid /\ kw_transform kw = Some tr /\
    (nc = 10 \/ nc = 100) /\
    fs (PathOf root // partition_file_name nc pid)%py =
      Some (PartitionFile (X, Y)) /\
    self =
      <["Y" := VTensorY Y]>
        (<["X" := VTensorX X]>
          (<["partition_path" :=
               VPath (PathOf root // partition_file_name nc pid)%py]>
            (<["partition_id" := VInt pid]>
              (<["root_dir" := VPath (PathOf root)]> ∅)))).
Proof.
  intros Hok nc root.
  destruct (kw_partition_id kw) as [pid|] eqn:Hp.
  2:{ destruct (init_unbound fs kw (or_introl Hp)) as [msg Hm].
      rewrite Hm in Hok. discriminate. }
  destruct (kw_transform kw) as [tr|] eqn:Ht.
  2:{ destruct (init_unbound fs kw (or_intror Ht)) as [msg Hm].
      rewrite Hm in Hok. discriminate. }
  rewrite (init_bound fs kw pid tr Hp Ht) in Hok. fold nc root in Hok.
  destruct (decide (nc = 10 \/ nc = 100)) as [Hnc|Hnc].
  - rewrite (body_valid_classes fs nc root pid tr Hnc) in Hok.
    cbv zeta in Hok.
    destruct (fs _) as [[[X Y]|c t]|] eqn:Hfs; [|discriminate|discriminate].
    cbn in Hok. injection Hok as <-. exists pid, tr, X, Y. auto.
  - rewrite body_invalid_classes in Hok by tauto. discriminate.
Qed.

(** X1: the constructor returns an object exactly when partition_id and
    transform are both supplied, num_classes (10 when left out) is 10 or
    100, and what is found at root_dir / cifar{num_classes}_{partition_id}.pt
    (root_dir being DATA_ROOT when left out) is a partition file, one that
    loads as a pair of arrays; a path that exists but holds anything else
    does not give an object. *)
Theorem construction_succeeds_iff (fs : filesystem) (kw : kwargs) :
  let nc := default 10 (kw_num_classes kw) in
  let root := default DATA_ROOT (kw_root_dir kw) in
  (exists self, outcome (CIFAR_PartitionedDataset_init fs kw) = Ok self) <->
  (exists pid tr xy,
     kw_partition_id kw = Some pid /\ kw_transform kw = Some tr /\
     (nc = 10 \/ nc = 100) /\
     fs (PathOf root // partition_file_name nc pid)%py =
       Some (PartitionFile xy)).
Proof.
  intros nc root. split.
  - intros [self Hok].
    destruct (init_success_inv fs kw self Hok)
      as (pid & tr & X & Y & Hp & Ht & Hnc & Hfs & _).
    exists pid, tr, (X, Y). fold nc root in Hfs. auto.
  - intros (pid & tr & [X Y] & Hp & Ht & Hnc & Hfs).
    rewrite (init_bound fs kw pid tr Hp Ht). fold nc root.
    rewrite (body_valid_classes fs nc root pid tr Hnc). cbv zeta.
    rewrite Hfs. eauto.
Qed.

(** X2: a constructed object has exactly the attributes root_dir,
    partition_id, partition_path, X and Y; X and Y are the two arrays of the
    partition file as stored, root_dir and partition_id are the arguments of
    the call. *)
Theorem constructed_attributes (fs : filesystem) (kw : kwargs)
    (self : object) :
  outcome (CIFAR_PartitionedDataset_init fs kw) = Ok self ->
  exists (pid : Z) (p : Path) (X : list feature) (Y : list Z),
    kw_partition_id kw = Some pid /\
    fs p = Some (PartitionFile (X, Y)) /\
    dom self =
      list_to_set ["root_dir"; "partition_id"; "partition_path"; "X"; "Y"]%string /\
    getattr self "root_dir" =
      Ok (VPath (PathOf (default DATA_ROOT (kw_root_dir kw)))) /\
    getattr self "partition_id" = Ok (VInt pid) /\
    getattr self "partition_path" = Ok (VPath p) /\
    getattr self "X" = Ok (VTensorX X) /\
    getattr self "Y" = Ok (VTensorY Y).
Proof.
  intros Hok.
  destruct (init_success_inv fs kw self Hok)
    as (pid & tr & X & Y & Hp & _ & _ & Hfs & ->).
  eexists pid, _, X, Y. split; [exact Hp|]. split; [exact Hfs|].
  split; [|repeat split].
  unfold object. rewrite !dom_insert_L, dom_empty_L. set_solver.
Qed.

(** X3: whatever the call, the constructor touches the file system at most
    twice and only to read: nothing, or one existence test that fails, or one
    existence test that succeeds followed by one load of the same path.  It
    never creates a directory, saves, downloads or partitions, and it never
    tries to load a file that is not there. *)
Theorem constructor_file_discipline (fs : filesystem) (kw : kwargs) :
  let r := CIFAR_PartitionedDataset_init fs kw in
  (trace r = [] \/
   (exists p, trace r = [EExists p] /\ fs p = None) \/
   (exists p, trace r = [EExists p; ELoad p] /\ is_Some (fs p))) /\
  disk_writes (trace r) = [] /\
  fetches (trace r) = [] /\
  partition_calls (trace r) = [] /\
  (forall msg, outcome r <> Raise (FileNotFoundError msg)).
Proof.
  intros r. subst r.
  destruct (kw_partition_id kw) as [pid|] eqn:Hp.
  2:{ destruct (init_unbound fs kw (or_introl Hp)) as [msg ->].
      repeat split; [by left | discriminate]. }
  destruct (kw_transform kw) as [tr|] eqn:Ht.
  2:{ destruct (init_unbound fs kw (or_intror Ht)) as [msg ->].
      repeat split; [by left | discriminate]. }
  rewrite (init_bound fs kw pid tr Hp Ht).
  set (nc := default 10 (kw_num_classes kw)).
  set (root := default DATA_ROOT (kw_root_dir kw)).
  destruct (decide (nc = 10 \/ nc = 100)) as [Hnc|Hnc].
  - rewrite (body_valid_classes fs nc root pid tr Hnc). cbv zeta.
    destruct (fs _) as [[[X Y]|c t]|] eqn:Hfs.
    + repeat split; [|discriminate]. right. right. eauto.
    + repeat split; [|discriminate]. right. right. eauto.
    + repeat split; [|discriminate]. right. left. eauto.
  - rewrite body_invalid_classes by tauto.
    repeat split; [by left | discriminate].
Qed.


Lemma nth_error_lookup {A : Type} (t : list A) (n : nat) :
  nth_error t n = t !! n.
Proof.
  revert n. induction t as [|a t IH]; intros [|n]; cbn; auto.
Qed.

Lemma tensor_index_at {A : Type} (t : list A) (n : nat) (a : A) :
  t !! n = Some a -> tensor_index t (Z.of_nat n) = Ok a.
Proof.
  intros H. pose proof (lookup_lt_Some _ _ _ H) as Hlt.
  unfold tensor_index.
  replace (Z.of_nat n <? 0) with false by (symmetry; apply Z.ltb_ge; lia).
  replace (0 <=? Z.of_nat n) with true by (symmetry; apply Z.leb_le; lia).
  replace (Z.of_nat n <? Z.of_nat (length t)) with true
    by (symmetry; apply Z.ltb_lt; lia).
  cbn. rewrite Nat2Z.id, nth_error_lookup, H. reflexivity.
Qed.

Lemma tensor_index_from_end {A : Type} (t : list A) (i : Z) :
  0 <= i < Z.of_nat (length t) ->
  tensor_index t (i - Z.of_nat (length t)) = tensor_index t i.
Proof.
  intros Hi. unfold tensor_index.
  replace (i - Z.of_nat (length t) <? 0) with true
    by (symmetry; apply Z.ltb_lt; lia).
  replace (i <? 0) with false by (symmetry; apply Z.ltb_ge; lia).
  replace (i - Z.of_nat (length t) + Z.of_nat (length t)) with i by lia.
  replace ((0 <=? i) && (i <? Z.of_nat (length t))) with true
    by (symmetry; apply andb_true_iff; split;
        [apply Z.leb_le | apply Z.ltb_lt]; lia).
  reflexivity.
Qed.

Lemma setattr_same (self : object) (name : string) (v : value) :
  setattr self name v !! name = Some v.
Proof. unfold setattr, object. apply lookup_insert_eq. Qed.

Lemma setattr_other (self : object) (name name' : string) (v : value) :
  name <> name' -> setattr self name v !! name' = self !! name'.
Proof. intros H. unfold setattr, object. by apply lookup_insert_ne. Qed.

(** Item access once the three attributes it reads first are known. *)
Lemma getitem_with_transform (self : object) (X : list feature)
    (Y : list Z) (t : value) (idx : Z) :
  self !! "X"%string = Some (VTensorX X) ->
  self !! "Y"%string = Some (VTensorY Y) ->
  self !! "transform"%string = Some t ->
  CIFAR_PartitionedDataset_getitem self idx =
  (x <- tensor_index X idx;
   y <- tensor_index Y idx;
   b <- truthy t;
   x' <- (if b : bool
          then (f <- getattr self "trasform"; call f (VImage x))
          else Ok (VImage x));
   Ok (x', VLabel y))%py.
Proof.
  intros HX HY HT. unfold CIFAR_PartitionedDataset_getitem, getattr at 1 2 3.
  rewrite HX. cbn. destruct (tensor_index X idx) as [x|e]; [|reflexivity].
  cbn. rewrite HY. cbn. destruct (tensor_index Y idx) as [y|e]; [|reflexivity].
  cbn. rewrite HT. reflexivity.
Qed.

Lemma constructed_arrays (fs : filesystem) (kw : kwargs) (self : object)
    (p : Path) (X : list feature) (Y : list Z) :
  outcome (CIFAR_PartitionedDataset_init fs kw) = Ok self ->
  getattr self "partition_path" = Ok (VPath p) ->
  fs p = Some (PartitionFile (X, Y)) ->
  self !! "X"%string = Some (VTensorX X) /\
  self !! "Y"%string = Some (VTensorY Y) /\
  self !! "transform"%string = None /\
  self !! "trasform"%string = None.
Proof.
  intros Hok Hpath Hfs.
  destruct (init_success_inv fs kw self Hok)
    as (pid & tr & X' & Y' & _ & _ & _ & Hfs' & ->).
  cbv zeta in *. unfold getattr, object in Hpath.
  rewrite !lookup_insert_ne, lookup_insert_eq in Hpath by discriminate.
  injection Hpath as <-.
  rewrite Hfs in Hfs'. injection Hfs' as <- <-.
  repeat split.
Qed.


(** X5: once a caller assigns transform = None on a constructed view, item
    access at a position n returns the pair (X[n], Y[n]) of the partition
    file: what was stored is what is read back. *)
Theorem getitem_after_setting_transform_None (fs : filesystem) (kw : kwargs)
    (self : object) (p : Path) (X : list feature) (Y : list Z)
    (n : nat) (x : feature) (y : Z) :
  outcome (CIFAR_PartitionedDataset_init fs kw) = Ok self ->
  getattr self "partition_path" = Ok (VPath p) ->
  fs p = Some (PartitionFile (X, Y)) ->
  X !! n = Some x ->
  Y !! n = Some y ->
  CIFAR_PartitionedDataset_getitem (setattr self "transform" VNone)
    (Z.of_nat n) = Ok (VImage x, VLabel y).
Proof.
  intros Hok Hpath Hfs Hx Hy.
  destruct (constructed_arrays fs kw self p X Y Hok Hpath Hfs)
    as (HX & HY & _ & _).
  rewrite (getitem_with_transform _ X Y VNone).
  - rewrite (tensor_index_at X n x Hx), (tensor_index_at Y n y Hy).
    reflexivity.
  - rewrite setattr_other by discriminate. exact HX.
  - rewrite setattr_other by discriminate. exact HY.
  - apply setattr_same.
Qed.

(** X6: on a view whose arrays both have length L, whatever value a caller
    has assigned to transform, the index i - L gives the same result as the
    index i, for 0 <= i < L: negative indices address the same items from
    the end. *)
Theorem negative_index_aliases (fs : filesystem) (kw : kwargs)
    (self : object) (p : Path) (X : list feature) (Y : list Z)
    (t : value) (i : Z) :
  outcome (CIFAR_PartitionedDataset_init fs kw) = Ok self ->
  getattr self "partition_path" = Ok (VPath p) ->
  fs p = Some (PartitionFile (X, Y)) ->
  length Y = length X ->
  0 <= i < Z.of_nat (length X) ->
  CIFAR_PartitionedDataset_getitem (setattr self "transform" t)
    (i - Z.of_nat (length X)) =
  CIFAR_PartitionedDataset_getitem (setattr self "transform" t) i.
Proof.
  intros Hok Hpath Hfs Hlen Hi.
  destruct (constructed_arrays fs kw self p X Y Hok Hpath Hfs)
    as (HX & HY & _ & _).
  assert (HX' : setattr self "transform" t !! "X"%string = Some (VTensorX X))
    by (rewrite setattr_other by discriminate; exact HX).
  assert (HY' : setattr self "transform" t !! "Y"%string = Some (VTensorY Y))
    by (rewrite setattr_other by discriminate; exact HY).
  assert (HT' : setattr self "transform" t !! "transform"%string = Some t)
    by apply setattr_same.
  rewrite !(getitem_with_transform _ X Y t _ HX' HY' HT').
  rewrite (tensor_index_from_end X i Hi).
  rewrite <- Hlen. rewrite (tensor_index_from_end Y i) by lia.
  reflexivity.
Qed.

(** X7: a transform assigned by the caller is never applied.  With a
    callable under transform, item access at a valid position raises
    AttributeError for the misspelt name trasform; only a callable stored
    under trasform is applied, and then it is that one, not transform. *)
Theorem assigned_transform_is_never_applied (fs : filesystem) (kw : kwargs)
    (self : object) (p : Path) (X : list feature) (Y : list Z)
    (n : nat) (x : feature) (y : Z) (f g : feature -> feature) :
  outcome (CIFAR_PartitionedDataset_init fs kw) = Ok self ->
  getattr self "partition_path" = Ok (VPath p) ->
  fs p = Some (PartitionFile (X, Y)) ->
  X !! n = Some x ->
  Y !! n = Some y ->
  CIFAR_PartitionedDataset_getitem
    (setattr self "transform" (VCallable f)) (Z.of_nat n) =
    Raise (AttributeError "trasform") /\
  CIFAR_PartitionedDataset_getitem
    (setattr (setattr self "transform" (VCallable f)) "trasform" (VCallable g))
    (Z.of_nat n) = Ok (VImage (g x), VLabel y).
Proof.
  intros Hok Hpath Hfs Hx Hy.
  destruct (constructed_arrays fs kw self p X Y Hok Hpath Hfs)
    as (HX & HY & _ & HT).
  split.
  - rewrite (getitem_with_transform _ X Y (VCallable f)).
    + rewrite (tensor_index_at X n x Hx), (tensor_index_at Y n y Hy).
      cbn. unfold getattr. rewrite setattr_other by discriminate.
      rewrite HT. reflexivity.
    + rewrite setattr_other by discriminate. exact HX.
    + rewrite setattr_other by discriminate. exact HY.
    + apply setattr_same.
  - rewrite (getitem_with_transform _ X Y (VCallable f)).
    + rewrite (tensor_index_at X n x Hx), (tensor_index_at Y n y Hy).
      cbn. unfold getattr. rewrite setattr_same. reflexivity.
    + rewrite !setattr_other by discriminate. exact HX.
    + rewrite !setattr_other by discriminate. exact HY.
    + rewrite setattr_other by discriminate. apply setattr_same.
Qed.

End DatasetClass.

(** * Further properties of the generator *)

Section Generator.
Context `{E : Externals}.

(** ** The file names [{idx:03}.pt] *)

(** X8: [{idx:03}] is never shorter than three characters, and is exactly
    three characters long for every position below 1000. *)
Theorem format_03_width (idx : nat) :
  (3 <= String.length (format_03 idx))%nat /\
  ((idx < 1000)%nat -> String.length (format_03 idx) = 3%nat).
Proof.
  split; [apply format_03_min_width | apply format_03_three_digits].
Qed.

(** X9: padding loses nothing: read as a decimal number, the text
    [{idx:03}] is idx again, at every position (also from 1000 on, where the
    text is longer than three characters). *)
Theorem format_03_reads_back (idx : nat) :
  Nat.of_uint <$> NilZero.uint_of_string (format_03 idx) = Some idx.
Proof.
  destruct (format_03_value idx) as (u & Hu & Hv).
  pose proof (format_03_min_width idx) as Hlen.
  unfold NilZero.uint_of_string.
  destruct (format_03 idx) as [|c rest]; [cbn in Hlen; lia|].
  rewrite Hu. cbn. rewrite Hv. reflexivity.
Qed.

Lemma format_03_inj (i j : nat) : format_03 i = format_03 j -> i = j.
Proof.
  intros H.
  destruct (format_03_value i) as (u & Hu & <-).
  destruct (format_03_value j) as (u' & Hu' & <-).
  rewrite H in Hu. congruence.
Qed.

Lemma append_length (s t : string) :
  String.length (s +:+ t) = (String.length s + String.length t)%nat.
Proof.
  induction s as [|c s IH]; [reflexivity|].
  change (S (String.length (s +:+ t)) = S (String.length s + String.length t)).
  by rewrite IH.
Qed.

Lemma append_cancel_r (s1 s2 t : string) : s1 +:+ t = s2 +:+ t -> s1 = s2.
Proof.
  revert s2. induction s1 as [|c s1 IH]; intros [|c' s2] H.
  - reflexivity.
  - apply (f_equal String.length) in H. rewrite !append_length in H.
    cbn in H. lia.
  - apply (f_equal String.length) in H. rewrite !append_length in H.
    cbn in H. lia.
  - cbn in H. injection H as -> H. f_equal. apply IH, H.
Qed.

Lemma shard_name_inj (i j : nat) :
  format_03 i +:+ ".pt" = format_03 j +:+ ".pt" -> i = j.
Proof. intros H. apply format_03_inj, (append_cancel_r _ _ _ H). Qed.

(** A shard name starts with a digit, so not with the letter c. *)
Lemma shard_name_head (idx : nat) :
  exists c rest, format_03 idx +:+ ".pt" = String c rest /\ c <> "c"%char.
Proof.
  destruct (format_03_value idx) as (u & Hu & _).
  pose proof (format_03_min_width idx) as Hlen.
  destruct (format_03 idx) as [|c rest]; [cbn in Hlen; lia|].
  exists c, (rest +:+ ".pt"). split; [reflexivity|].
  intros ->. cbn in Hu. destruct (NilEmpty.uint_of_string rest); discriminate.
Qed.

(** ** The paths a run writes *)

Lemma saved_paths_app (l1 l2 : list event) :
  saved_paths (l1 ++ l2) = saved_paths l1 ++ saved_paths l2.
Proof. apply omap_app. Qed.

Lemma made_dirs_app (l1 l2 : list event) :
  made_dirs (l1 ++ l2) = made_dirs l1 ++ made_dirs l2.
Proof. apply omap_app. Qed.

Lemma file_accesses_app (l1 l2 : list event) :
  file_accesses (l1 ++ l2) = file_accesses l1 ++ file_accesses l2.
Proof. apply omap_app. Qed.

Lemma saves_read (f : nat -> Path) (shards : XYList) :
  let l := imap (fun idx part => ESave part (f idx)) shards in
  saved_paths l = f <$> seq 0 (length shards) /\
  made_dirs l = [] /\ file_accesses l = [].
Proof.
  cbv zeta. revert f.
  induction shards as [|part rest IH]; intros f; [by repeat split|].
  destruct (IH (fun idx => f (S idx))) as (IHs & IHm & IHf).
  repeat split; [|exact IHm|exact IHf].
  cbn. f_equal. unfold saved_paths in IHs. unfold compose. rewrite IHs.
  rewrite <- fmap_S_seq, <- list_fmap_compose. reflexivity.
Qed.

Lemma main_saved_paths (args : Namespace) (g : rng) :
  let root :=
    (PathOf (save_root args) // "partitions" // "lda" // format_2f (alpha args))%py in
  let xy :=
    convert_pytorch_dataset_to_xy
      (torchvision_dataset CIFAR10 (download_root args) true true) in
  let first :=
    create_lda_partitions g xy (np_empty 0)
                          (num_partitions args) (alpha args) in
  let second :=
    create_lda_partitions first.2 xy first.1.2
                          (num_partitions args) (alpha args) in
  saved_paths (trace (main args g)) =
    ((fun idx => (root // "train" // (format_03 idx +:+ ".pt"))%py)
       <$> seq 0 (length first.1.1)) ++
    ((fun idx => (root // "test" // (format_03 idx +:+ ".pt"))%py)
       <$> seq 0 (length second.1.1)) /\
  made_dirs (trace (main args g)) = [(root // "train")%py; (root // "test")%py] /\
  file_accesses (trace (main args g)) = [].
Proof.
  intros root xy first second.
  rewrite (main_run args g). cbv zeta. unfold trace. cbn [fst].
  fold root xy. fold first. fold second.
  pose proof (saves_read
    (fun idx => (root // "train" // (format_03 idx +:+ ".pt"))%py) first.1.1)
    as (S1 & M1 & F1).
  pose proof (saves_read
    (fun idx => (root // "test" // (format_03 idx +:+ ".pt"))%py) second.1.1)
    as (S2 & M2 & F2).
  cbv beta in *.
  rewrite !saved_paths_app, !made_dirs_app, !file_accesses_app.
  rewrite S1, S2, M1, M2, F1, F2. repeat split.
Qed.

(** X10: within one run no path is written twice: the shards of a split
    get pairwise different names, and the two splits go to different
    directories, so no shard overwrites another. *)
Theorem saved_paths_are_distinct (args : Namespace) (g : rng) :
  NoDup (saved_paths (trace (main args g))).
Proof.
  destruct (main_saved_paths args g) as (HS & _ & _). cbv zeta in HS.
  rewrite HS. apply NoDup_app. split; [|split].
  - apply NoDup_fmap_2; [|apply NoDup_seq].
    intros i j H. injection H as H. by apply shard_name_inj.
  - intros x [i [-> _]]%list_elem_of_fmap [j [H _]]%list_elem_of_fmap.
    discriminate H.
  - apply NoDup_fmap_2; [|apply NoDup_seq].
    intros i j H. injection H as H. by apply shard_name_inj.
Qed.

Lemma init_accessed_paths (fs : filesystem) (kw : kwargs) :
  Forall (fun q => exists root nc pid,
                     q = (PathOf root // partition_file_name nc pid)%py)
         (file_accesses (trace (CIFAR_PartitionedDataset_init fs kw))).
Proof.
  destruct (kw_partition_id kw) as [pid|] eqn:Hp.
  2:{ destruct (init_unbound fs kw (or_introl Hp)) as [msg ->]. constructor. }
  destruct (kw_transform kw) as [tr|] eqn:Ht.
  2:{ destruct (init_unbound fs kw (or_intror Ht)) as [msg ->]. constructor. }
  rewrite (init_bound fs kw pid tr Hp Ht).
  set (nc := default 10 (kw_num_classes kw)).
  set (root := default DATA_ROOT (kw_root_dir kw)).
  destruct (decide (nc = 10 \/ nc = 100)) as [Hnc|Hnc].
  - rewrite (body_valid_classes fs nc root pid tr Hnc). cbv zeta.
    destruct (fs _) as [[[X Y]|c t]|]; cbn; repeat constructor; eauto.
  - rewrite body_invalid_classes by tauto. constructor.
Qed.

(** X11: the generator and the dataset class do not agree on file names.
    The last component of every path the constructor looks for
    (cifar{num_classes}_{partition_id}.pt) differs from the last component of
    every path a run saves ({idx:03}.pt), whatever the arguments of either. *)
Theorem generator_names_are_not_loader_names (fs : filesystem) (kw : kwargs)
    (args : Namespace) (g : rng) (q p : Path) :
  q ∈ file_accesses (trace (CIFAR_PartitionedDataset_init fs kw)) ->
  p ∈ saved_paths (trace (main args g)) ->
  exists (dq : Path) (nq : string) (dp : Path) (np : string),
    q = (dq // nq)%py /\ p = (dp // np)%py /\ nq <> np.
Proof.
  intros Hq Hp.
  pose proof (init_accessed_paths fs kw) as Hall.
  rewrite Forall_forall in Hall.
  destruct (Hall q Hq) as (root & nc & pid & ->).
  destruct (main_saved_paths args g) as (HS & _ & _). cbv zeta in HS.
  rewrite HS in Hp. apply elem_of_app in Hp.
  assert (Hname : forall idx, partition_file_name nc pid <> format_03 idx +:+ ".pt").
  { intros idx H. destruct (shard_name_head idx) as (c & rest & Hc & Hne).
    rewrite Hc in H. unfold partition_file_name in H. cbn in H.
    injection H as H _. congruence. }
  destruct Hp as [[i [-> _]]%list_elem_of_fmap | [i [-> _]]%list_elem_of_fmap];
    do 4 eexists; (split; [reflexivity|]); (split; [reflexivity|]);
    apply Hname.
Qed.

(** X12: if the partitioner returns as many shards as it is asked for, a
    run writes exactly num_partitions files per split, named 000.pt onwards
    in the split's directory, 2 * num_partitions files in all. *)
Theorem files_per_split (args : Namespace) (g : rng) :
  (forall g' xy dist n a,
     length (create_lda_partitions g' xy dist n a).1.1 = Z.to_nat n) ->
  let root :=
    (PathOf (save_root args) // "partitions" // "lda" // format_2f (alpha args))%py in
  let n := Z.to_nat (num_partitions args) in
  saved_paths (trace (main args g)) =
    ((fun idx => (root // "train" // (format_03 idx +:+ ".pt"))%py) <$> seq 0 n) ++
    ((fun idx => (root // "test" // (format_03 idx +:+ ".pt"))%py) <$> seq 0 n) /\
  length (saved_paths (trace (main args g))) = (2 * n)%nat.
Proof.
  intros Hcount root n.
  destruct (main_saved_paths args g) as (HS & _ & _). cbv zeta in HS.
  rewrite !Hcount in HS. fold root n in HS. rewrite HS. split; [reflexivity|].
  rewrite length_app, !length_fmap, !length_seq. lia.
Qed.

(** X13: the directories a run creates depend on --save_root and --alpha
    only.  Runs that differ in --num_classes or --num_partitions (or in the
    random state) create the same two directories, train then test. *)
Theorem output_dirs_ignore_classes_and_count (args args' : Namespace)
    (g g' : rng) :
  save_root args = save_root args' ->
  alpha args = alpha args' ->
  made_dirs (trace (main args g)) = made_dirs (trace (main args' g')) /\
  made_dirs (trace (main args g)) =
    [(PathOf (save_root args) // "partitions" // "lda"
        // format_2f (alpha args) // "train")%py;
     (PathOf (save_root args) // "partitions" // "lda"
        // format_2f (alpha args) // "test")%py].
Proof.
  intros Hroot Halpha.
  destruct (main_saved_paths args g) as (_ & HM & _).
  destruct (main_saved_paths args' g') as (_ & HM' & _).
  cbv zeta in HM, HM'. rewrite HM, HM', Hroot, Halpha. split; reflexivity.
Qed.

(** X14: a run downloads first and never reads a partition file: its log
    starts with the two fetches, nothing after them is a fetch, and no
    existence test or load occurs anywhere in it. *)
Theorem run_downloads_first_and_never_loads (args : Namespace) (g : rng) :
  take 2 (trace (main args g)) =
    [EFetch CIFAR10 (download_root args) true true;
     EFetch CIFAR10 (download_root args) true true] /\
  fetches (drop 2 (trace (main args g))) = [] /\
  file_accesses (trace (main args g)) = [].
Proof.
  destruct (main_saved_paths args g) as (_ & _ & HF). cbv zeta in HF.
  split; [|split]; [| |exact HF].
  - rewrite (main_run args g). reflexivity.
  - pose proof (main_fetches args g) as H.
    rewrite (main_run args g) in *. cbv zeta in *. unfold trace in *.
    cbn [fst] in *. cbn [app drop].
    change (EFetch CIFAR10 (download_root args) true true ::
            EFetch CIFAR10 (download_root args) true true :: ?l)
      with ([EFetch CIFAR10 (download_root args) true true;
             EFetch CIFAR10 (download_root args) true true] ++ l) in H.
    rewrite fetches_app in H. cbn in H. injection H as H. exact H.
Qed.

End Generator.

(** * File and directory names tell their arguments apart *)

Section Names.
Context `{E : Externals}.

Lemma str_int_reads_back (n : Z) :
  NilZero.int_of_string (str_int n) = Some (Z.to_int n).
Proof.
  unfold str_int. apply NilZero.isi; destruct n as [|q|q]; cbn;
    try discriminate; intros [= H];
    exact (DecimalPos.Unsigned.to_uint_nonnil q H).
Qed.

Lemma str_int_inj (n m : Z) : str_int n = str_int m -> n = m.
Proof.
  intros H. apply DecimalZ.to_int_inj.
  pose proof (str_int_reads_back n) as Hn.
  rewrite H, str_int_reads_back in Hn. congruence.
Qed.

(** X15: for the two admitted values of num_classes, different pairs
    (num_classes, partition_id) name different partition files, negative
    partition ids included. *)
Theorem partition_files_are_distinct (nc nc' pid pid' : Z) :
  nc = 10 \/ nc = 100 ->
  nc' = 10 \/ nc' = 100 ->
  nc <> nc' \/ pid <> pid' ->
  partition_file_name nc pid <> partition_file_name nc' pid'.
Proof.
  intros Hnc Hnc' Hdiff H.
  assert (Heq : nc = nc' /\ pid = pid'); [|tauto].
  clear Hdiff. destruct Hnc as [-> | ->], Hnc' as [-> | ->];
    unfold partition_file_name in H; cbn in H; try discriminate.
  - injection H as H. split; [reflexivity|].
    apply str_int_inj, (append_cancel_r _ _ ".pt"), H.
  - injection H as H. split; [reflexivity|].
    apply str_int_inj, (append_cancel_r _ _ ".pt"), H.
Qed.

(** X16: two runs download into the same directory exactly when they were
    given the same --num_classes. *)
Theorem download_root_tells_num_classes (args args' : Namespace) :
  download_root args = download_root args' <->
  num_classes args = num_classes args'.
Proof.
  unfold download_root. split.
  - intros H. apply String.app_inj in H. apply String.app_inj in H.
    apply str_int_inj, H.
  - intros ->. reflexivity.
Qed.

End Names.

(** * The further properties on the small instance *)

Lemma constructed_attributes_witness :
  exists (pid : Z) (p : Path) (X : list Z) (Y : list Z),
    kw_partition_id (toy_kwargs 10) = Some pid /\
    toy_fs p = Some (@PartitionFile toy (X, Y)) /\
    dom toy_view =
      list_to_set ["root_dir"; "partition_id"; "partition_path"; "X"; "Y"]%string /\
    @getattr toy toy_view "root_dir" =
      Ok (@VPath toy (PathOf (default DATA_ROOT (kw_root_dir (toy_kwargs 10))))) /\
    @getattr toy toy_view "partition_id" = Ok (@VInt toy pid) /\
    @getattr toy toy_view "partition_path" = Ok (@VPath toy p) /\
    @getattr toy toy_view "X" = Ok (@VTensorX toy X) /\
    @getattr toy toy_view "Y" = Ok (@VTensorY toy Y).
Proof.
  apply (@constructed_attributes toy toy_fs (toy_kwargs 10) toy_view).
  reflexivity.
Defined.


Lemma getitem_after_setting_transform_None_witness :
  @CIFAR_PartitionedDataset_getitem toy
    (setattr toy_view "transform" (@VNone toy)) 1 =
  Ok (@VImage toy 6, @VLabel toy 1).
Proof.
  apply (@getitem_after_setting_transform_None toy toy_fs (toy_kwargs 10)
           toy_view (PathOf "data" // "cifar10_0.pt")%py
           [5; 6; 7] [0; 1; 0] 1%nat 6 1); reflexivity.
Defined.

Lemma negative_index_aliases_witness :
  @CIFAR_PartitionedDataset_getitem toy
    (setattr toy_view "transform" (@VNone toy)) (1 - 3) =
  @CIFAR_PartitionedDataset_getitem toy
    (setattr toy_view "transform" (@VNone toy)) 1.
Proof.
  apply (@negative_index_aliases toy toy_fs (toy_kwargs 10) toy_view
           (PathOf "data" // "cifar10_0.pt")%py [5; 6; 7] [0; 1; 0]
           (@VNone toy) 1); try reflexivity.
  cbn. lia.
Defined.

Lemma assigned_transform_is_never_applied_witness :
  @CIFAR_PartitionedDataset_getitem toy
    (setattr toy_view "transform" (@VCallable toy (Z.mul 2))) 1 =
    Raise (AttributeError "trasform") /\
  @CIFAR_PartitionedDataset_getitem toy
    (setattr (setattr toy_view "transform" (@VCallable toy (Z.mul 2)))
             "trasform" (@VCallable toy Z.succ)) 1 =
    Ok (@VImage toy 7, @VLabel toy 1).
Proof.
  apply (@assigned_transform_is_never_applied toy toy_fs (toy_kwargs 10)
           toy_view (PathOf "data" // "cifar10_0.pt")%py
           [5; 6; 7] [0; 1; 0] 1%nat 6 1 (Z.mul 2) Z.succ); reflexivity.
Defined.

Lemma format_03_width_witness : String.length (format_03 42) = 3%nat.
Proof.
  apply (proj2 (format_03_width 42)). lia.
Defined.

Lemma generator_names_are_not_loader_names_witness :
  exists (dq : Path) (nq : string) (dp : Path) (np : string),
    (PathOf "data" // "cifar10_0.pt")%py = (dq // nq)%py /\
    (PathOf "out" // "partitions" // "lda" // "0.10" // "train" // "000.pt")%py =
      (dp // np)%py /\
    nq <> np.
Proof.
  apply (@generator_names_are_not_loader_names toy toy_fs (toy_kwargs 10)
           toy_args 3%nat).
  - vm_compute. apply list_elem_of_here.
  - vm_compute. apply list_elem_of_here.
Defined.

Lemma toy_partitioner_count (g : nat) (xy : list Z * list Z) (dist : list Z)
    (n : Z) (a : nat) :
  length (@create_lda_partitions toy g xy dist n a).1.1 = Z.to_nat n.
Proof.
  cbn. unfold deal. rewrite length_zip, !length_map, length_seq. lia.
Qed.

Lemma files_per_split_witness :
  saved_paths (trace (@main toy toy_args 3%nat)) =
    ((fun idx => (PathOf "out" // "partitions" // "lda" // "0.10" // "train"
                    // (format_03 idx +:+ ".pt"))%py) <$> seq 0 2) ++
    ((fun idx => (PathOf "out" // "partitions" // "lda" // "0.10" // "test"
                    // (format_03 idx +:+ ".pt"))%py) <$> seq 0 2) /\
  length (saved_paths (trace (@main toy toy_args 3%nat))) = 4%nat.
Proof.
  apply (@files_per_split toy toy_args 3%nat toy_partitioner_count).
Defined.

Lemma output_dirs_ignore_classes_and_count_witness :
  made_dirs (trace (@main toy toy_args 3%nat)) =
    made_dirs (trace (@main toy toy_args' 8%nat)) /\
  made_dirs (trace (@main toy toy_args 3%nat)) =
    [(PathOf "out" // "partitions" // "lda" // "0.10" // "train")%py;
     (PathOf "out" // "partitions" // "lda" // "0.10" // "test")%py].
Proof.
  apply (@output_dirs_ignore_classes_and_count toy toy_args toy_args'
           3%nat 8%nat); reflexivity.
Defined.

Lemma partition_files_are_distinct_witness :
  partition_file_name 10 1 <> partition_file_name 100 1.
Proof.
  apply (partition_files_are_distinct 10 100 1 1);
    [left; reflexivity | right; reflexivity | left; discriminate].
Defined.
